(** * BIOS boot logic of the industrial mainboard (bios_boot.c)

    A shallow embedding of [src/bios_boot.c].  The C file keeps one global
    record [g_state] and writes to the console; both are threaded through a
    state monad here.  Fixed-width unsigned integers are integers of [Z] with
    the wrap-around written where the C code can overflow. *)

From Stdlib Require Import ZArith Bool List String Lia.
From ExtLib Require Import Structures.Monad Structures.MonadState.
From ExtLib Require Import Data.Monads.StateMonad.
Import ListNotations.
Import MonadNotation.
Local Open Scope monad_scope.
Local Open Scope string_scope.
Local Open Scope list_scope.
Local Open Scope Z_scope.

(* ================================================================== *)
(** ** Configuration constants *)

Definition TEMP_NORMAL_MAX : Z := 85.
Definition TEMP_HIGH_MAX : Z := 300.
Definition TEMP_CRITICAL : Z := 140.
Definition BOOT_RETRY_MAX : Z := 3.

(** Boot status codes. *)
Definition BOOT_OK : Z := 0.
Definition BOOT_TEMP_WARNING : Z := 1.
Definition BOOT_TEMP_CRITICAL : Z := 2.
Definition BOOT_FAILED : Z := 3.

(* ================================================================== *)
(** ** The global state *)

(** [uint16_t cpu_temp, board_temp; uint8_t boot_count; bool high_temp_mode]. *)
Record SystemState : Type := mkSystemState {
  cpu_temp : Z;
  board_temp : Z;
  boot_count : Z;
  high_temp_mode : bool
}.

(** Ranges of the C field types. *)
Definition uint8_max : Z := 255.
Definition uint16_max : Z := 65535.

Definition in_range (s : SystemState) : Prop :=
  0 <= cpu_temp s <= uint16_max /\
  0 <= board_temp s <= uint16_max /\
  0 <= boot_count s <= uint8_max.

(** Conversion to [uint8_t] of the [int] value of [x + 1]. *)
Definition to_uint8 (x : Z) : Z := x mod 256.

(** Conversion to [uint16_t] of a value assigned to a temperature field. *)
Definition to_uint16 (x : Z) : Z := x mod 65536.

(** Field assignments [g_state.f = v]. *)
Definition set_cpu_temp (v : Z) (s : SystemState) : SystemState :=
  mkSystemState v (board_temp s) (boot_count s) (high_temp_mode s).

Definition set_board_temp (v : Z) (s : SystemState) : SystemState :=
  mkSystemState (cpu_temp s) v (boot_count s) (high_temp_mode s).

Definition set_boot_count (v : Z) (s : SystemState) : SystemState :=
  mkSystemState (cpu_temp s) (board_temp s) v (high_temp_mode s).

(** [static SystemState g_state = {0};] *)
Definition g_state_init : SystemState := mkSystemState 0 0 0 false.

(* ================================================================== *)
(** ** Console output *)

(** What the program writes to standard output, one item per call of
    [log_boot], [log_error] or per [printf] group of the source. *)
Inductive output : Type :=
| BootLog (msg : string)            (* printf("[BOOT LOG] %s\n", msg) *)
| ErrorLog (msg : string)           (* printf("[ERROR] %s\n", msg) *)
| TempLine (cpu board : Z)          (* printf("CPU Temp: %d..., Board Temp: %d...") *)
| Banner (attempt : Z)              (* the five banner lines with "Boot Attempt: %d" *)
| Success                           (* printf("\n[SUCCESS] System boot completed!\n\n") *)
| TestTitle (msg : string).         (* the "=== Test ... ===" lines of main *)

(** The machine: the global record and the console written so far
    (oldest first). *)
Record World : Type := mkWorld {
  g_state : SystemState;
  console : list output
}.

Definition BIOS : Type -> Type := state World.

Definition emit (o : output) : BIOS unit :=
  modify (fun w => mkWorld (g_state w) (console w ++ [o])) ;; ret tt.

Definition read_state : BIOS SystemState :=
  w <- get ;; ret (g_state w).

Definition update_state (f : SystemState -> SystemState) : BIOS unit :=
  modify (fun w => mkWorld (f (g_state w)) (console w)) ;; ret tt.

(* ================================================================== *)
(** ** Temperature reads (hardware simulation) *)

Definition read_cpu_temperature : BIOS Z :=
  s <- read_state ;; ret (cpu_temp s).

Definition read_board_temperature : BIOS Z :=
  s <- read_state ;; ret (board_temp s).

(** ** Logging *)

Definition log_boot (msg : string) : BIOS unit := emit (BootLog msg).
Definition log_error (msg : string) : BIOS unit := emit (ErrorLog msg).

(* ================================================================== *)
(** ** Core boot logic *)

(** [check_thermal_conditions]: stores both sensor values back into
    [g_state], prints them, and blocks the boot when the CPU temperature is
    above [TEMP_NORMAL_MAX]. *)
Definition check_thermal_conditions : BIOS Z :=
  t <- read_cpu_temperature ;;
  update_state (set_cpu_temp t) ;;
  b <- read_board_temperature ;;
  update_state (set_board_temp b) ;;
  s <- read_state ;;
  emit (TempLine (cpu_temp s) (board_temp s)) ;;
  if TEMP_NORMAL_MAX <? cpu_temp s then
    log_error "Temperature too high for boot!" ;;
    ret BOOT_TEMP_CRITICAL
  else
    ret BOOT_OK.

(** The body of [check_power_stability] after its local [power_ok] has been
    given a value. *)
Definition check_power_stability_of (power_ok : bool) : BIOS bool :=
  log_boot "Checking power supply stability..." ;;
  if power_ok then
    log_boot "Power supply: STABLE" ;;
    ret true
  else
    log_error "Power supply unstable!" ;;
    ret false.

(** [check_power_stability]: the source initialises [power_ok] to [true]. *)
Definition check_power_stability : BIOS bool :=
  check_power_stability_of true.

(** The boot sequence over a given power check. *)
Definition bios_boot_sequence_over (power_check : BIOS bool) : BIOS Z :=
  update_state (fun s => set_boot_count (to_uint8 (boot_count s + 1)) s) ;;
  s <- read_state ;;
  emit (Banner (boot_count s)) ;;
  log_boot "Step 1: Power check" ;;
  ok <- power_check ;;
  if negb ok then
    ret BOOT_FAILED
  else
    log_boot "Step 2: Thermal check" ;;
    thermal_status <- check_thermal_conditions ;;
    if thermal_status =? BOOT_TEMP_CRITICAL then
      log_error "Boot aborted due to thermal conditions" ;;
      ret BOOT_TEMP_CRITICAL
    else
      log_boot "Step 3: Hardware initialization" ;;
      log_boot "Initializing CPU..." ;;
      log_boot "Initializing Memory..." ;;
      log_boot "Initializing I/O..." ;;
      log_boot "Step 4: Boot complete" ;;
      emit Success ;;
      ret BOOT_OK.

(** [bios_boot_sequence], the main boot sequence of the source. *)
Definition bios_boot_sequence : BIOS Z :=
  bios_boot_sequence_over check_power_stability.

(** [main]: the two test scenarios.  The constants it stores fit their
    fields, so the stores need no conversion. *)
Definition main : BIOS Z :=
  emit (TestTitle "=== Test 1: Normal Temperature ===") ;;
  update_state (set_cpu_temp 75) ;;
  update_state (set_board_temp 70) ;;
  _ <- bios_boot_sequence ;;
  emit (TestTitle "=== Test 2: High Temperature (Factory) ===") ;;
  update_state (set_cpu_temp 95) ;;
  update_state (set_board_temp 90) ;;
  update_state (set_boot_count 0) ;;
  _ <- bios_boot_sequence ;;
  ret 0.

(** A session: for each reading the caller stores the two temperatures into
    [g_state], as [main] does before each scenario, and runs one boot
    attempt; the status codes are collected in order.  The assignment to a
    [uint16_t] field converts the value stored. *)
Fixpoint boot_session (readings : list (Z * Z)) : BIOS (list Z) :=
  match readings with
  | [] => ret []
  | (c, b) :: rest =>
      update_state (set_cpu_temp (to_uint16 c)) ;;
      update_state (set_board_temp (to_uint16 b)) ;;
      r <- bios_boot_sequence ;;
      rs <- boot_session rest ;;
      ret (r :: rs)
  end.

(* ================================================================== *)
(** ** Observations *)

(** Result, final machine and final record of one run from a world [w]. *)
Definition status_of {A} (c : BIOS A) (w : World) : A := fst (runState c w).
Definition world_after {A} (c : BIOS A) (w : World) : World := snd (runState c w).
Definition state_after {A} (c : BIOS A) (w : World) : SystemState :=
  g_state (world_after c w).

(** The lines a run adds to the console. *)
Definition printed_by {A} (c : BIOS A) (w : World) : list output :=
  skipn (List.length (console w)) (console (world_after c w)).

(** The temperature line is printed by [check_thermal_conditions] and by
    nothing else; the success line only by the last stage of the boot. *)
Definition is_temp_line (o : output) : bool :=
  match o with TempLine _ _ => true | _ => false end.

Definition is_success (o : output) : bool :=
  match o with Success => true | _ => false end.

Definition thermal_check_ran {A} (c : BIOS A) (w : World) : bool :=
  existsb is_temp_line (printed_by c w).

Definition boot_completed {A} (c : BIOS A) (w : World) : bool :=
  existsb is_success (printed_by c w).

(** The machine at program start, and the machine after the caller has
    stored a reading. *)
Definition boot_world : World := mkWorld g_state_init [].

Definition store_reading (c b : Z) (w : World) : World :=
  mkWorld (set_board_temp (to_uint16 b) (set_cpu_temp (to_uint16 c) (g_state w)))
    (console w).

(** The state left by the first statement of the boot sequence,
    [g_state.boot_count++]. *)
Definition count_attempt (s : SystemState) : SystemState :=
  set_boot_count (to_uint8 (boot_count s + 1)) s.

(** The machine when the boot sequence reaches its power check: the attempt
    is counted, the banner and the step title are printed. *)
Definition at_power_check (w : World) : World :=
  mkWorld (count_attempt (g_state w))
    (console w ++ [Banner (boot_count (count_attempt (g_state w)));
                   BootLog "Step 1: Power check"]).

(** Console lines of the boot sequence, by stage. *)
Definition power_stage_lines (attempt : Z) (power_ok : bool) : list output :=
  [Banner attempt; BootLog "Step 1: Power check";
   BootLog "Checking power supply stability...";
   if power_ok then BootLog "Power supply: STABLE"
   else ErrorLog "Power supply unstable!"].

Definition thermal_lines (s : SystemState) : list output :=
  TempLine (cpu_temp s) (board_temp s) ::
  (if TEMP_NORMAL_MAX <? cpu_temp s
   then [ErrorLog "Temperature too high for boot!"] else []).

Definition init_stage_lines : list output :=
  [BootLog "Step 3: Hardware initialization";
   BootLog "Initializing CPU..."; BootLog "Initializing Memory...";
   BootLog "Initializing I/O..."; BootLog "Step 4: Boot complete";
   Success].

Definition boot_lines (s : SystemState) : list output :=
  power_stage_lines (boot_count (count_attempt s)) true ++
  BootLog "Step 2: Thermal check" ::
  thermal_lines s ++
  (if TEMP_NORMAL_MAX <? cpu_temp s
   then [ErrorLog "Boot aborted due to thermal conditions"]
   else init_stage_lines).

(** Two records that differ at most in [board_temp]. *)
Definition same_but_board_temp (s1 s2 : SystemState) : Prop :=
  cpu_temp s1 = cpu_temp s2 /\
  boot_count s1 = boot_count s2 /\
  high_temp_mode s1 = high_temp_mode s2.

(** Two records that hold the same reading and the same mode. *)
Definition same_thermal_input (s1 s2 : SystemState) : Prop :=
  cpu_temp s1 = cpu_temp s2 /\
  board_temp s1 = board_temp s2 /\
  high_temp_mode s1 = high_temp_mode s2.

(* ================================================================== *)
(** ** Statements of the design document, read on the code

    The design document names the status codes [Proceed] ([BOOT_OK]),
    [ProceedWithWarning] ([BOOT_TEMP_WARNING]), [AbortCritical]
    ([BOOT_TEMP_CRITICAL]) and [AbortPower] ([BOOT_FAILED]); its operating
    mode is [high_temp_mode], [Normal] being [false]. *)

(** Either temperature at or above the critical ceiling aborts. *)
Definition critical_ceiling_aborts (w : World) : Prop :=
  TEMP_CRITICAL <= cpu_temp (g_state w) \/
  TEMP_CRITICAL <= board_temp (g_state w) ->
  status_of check_thermal_conditions w = BOOT_TEMP_CRITICAL /\
  status_of bios_boot_sequence w = BOOT_TEMP_CRITICAL.

(** A CPU temperature equal to the normal maximum is not a plain proceed. *)
Definition boundary_counts_as_exceeded (w : World) : Prop :=
  cpu_temp (g_state w) = TEMP_NORMAL_MAX ->
  status_of check_thermal_conditions w <> BOOT_OK.

(** Each call adds one to the attempt counter, and the counter never
    decreases over a sequence of calls. *)
Definition attempt_counter_grows (w : World) : Prop :=
  boot_count (state_after bios_boot_sequence w) = boot_count (g_state w) + 1 /\
  forall readings,
    boot_count (g_state w) <=
    boot_count (state_after (boot_session readings) w).

(** Worlds used as concrete inputs. *)
Definition normal_world : World := mkWorld (mkSystemState 75 70 0 false) [].
Definition factory_world : World := mkWorld (mkSystemState 95 90 0 false) [].
Definition later_factory_world : World :=
  mkWorld (mkSystemState 95 90 7 false) [Banner 7; Success].
Definition hot_board_world : World := mkWorld (mkSystemState 75 140 0 false) [].
Definition boundary_world : World := mkWorld (mkSystemState 85 70 0 false) [].
Definition overheated_world : World := mkWorld (mkSystemState 145 70 0 true) [].

(** The machine after 255 boot attempts at room temperature from program
    start. *)
Definition worn_world : World :=
  world_after (boot_session (repeat (75, 70) 255)) boot_world.

(** The machine after [main] has printed a title line, and after its
    statement [g_state.boot_count = 0]. *)
Definition print_line (o : output) (w : World) : World :=
  mkWorld (g_state w) (console w ++ [o]).

Definition reset_count (w : World) : World :=
  mkWorld (set_boot_count 0 (g_state w)) (console w).

(** The worlds the program can be in.  [g_state] is a static variable of the
    file, zeroed at program start, and only the statements of the file write
    it: the stores of a temperature pair and of [boot_count = 0] that [main]
    makes between attempts, and the calls of the three functions.  Printing
    a line changes the console only. *)
Inductive reachable : World -> Prop :=
| reach_start : reachable boot_world
| reach_store c b w :
    reachable w -> reachable (store_reading c b w)
| reach_reset_count w :
    reachable w -> reachable (reset_count w)
| reach_print o w :
    reachable w -> reachable (print_line o w)
| reach_thermal w :
    reachable w -> reachable (world_after check_thermal_conditions w)
| reach_power w :
    reachable w -> reachable (world_after check_power_stability w)
| reach_boot w :
    reachable w -> reachable (world_after bios_boot_sequence w).


(** Error lines, as [log_error] prints them, and those a run adds. *)
Definition is_error (o : output) : bool :=
  match o with ErrorLog _ => true | _ => false end.

Definition error_lines {A} (c : BIOS A) (w : World) : list output :=
  filter is_error (printed_by c w).

(** A reading that fits the two [uint16_t] temperature fields. *)
Definition reading_in_range (r : Z * Z) : Prop :=
  0 <= fst r <= uint16_max /\ 0 <= snd r <= uint16_max.

(* ================================================================== *)
(** ** Run equations *)

Ltac open_world w :=
  let c := fresh "c" in let b := fresh "b" in
  let n := fresh "n" in let m := fresh "m" in
  let out := fresh "out" in
  destruct w as [[c b n m] out].

Ltac flatten_console := repeat rewrite <- app_assoc; cbn [app].

Lemma skipn_length_app {A} (l l' : list A) :
  skipn (List.length l) (l ++ l') = l'.
Proof. induction l as [|x l IH]; [reflexivity | exact IH]. Qed.

Lemma check_thermal_conditions_run w :
  runState check_thermal_conditions w =
  (if TEMP_NORMAL_MAX <? cpu_temp (g_state w)
   then BOOT_TEMP_CRITICAL else BOOT_OK,
   mkWorld (g_state w) (console w ++ thermal_lines (g_state w))).
Proof.
  open_world w. unfold check_thermal_conditions, thermal_lines. cbn.
  destruct (TEMP_NORMAL_MAX <? c); cbn; flatten_console; reflexivity.
Qed.

Lemma check_power_stability_of_run power_ok w :
  runState (check_power_stability_of power_ok) w =
  (power_ok,
   mkWorld (g_state w)
     (console w ++ [BootLog "Checking power supply stability...";
                    if power_ok then BootLog "Power supply: STABLE"
                    else ErrorLog "Power supply unstable!"])).
Proof.
  open_world w. unfold check_power_stability_of.
  destruct power_ok; cbn; flatten_console; reflexivity.
Qed.

(** The boot sequence when the power check fails. *)
Lemma boot_run_power_fail w :
  runState (bios_boot_sequence_over (check_power_stability_of false)) w =
  (BOOT_FAILED,
   mkWorld (count_attempt (g_state w))
     (console w ++
      power_stage_lines (boot_count (count_attempt (g_state w))) false)).
Proof.
  open_world w. unfold bios_boot_sequence_over, power_stage_lines.
  cbn. flatten_console. reflexivity.
Qed.

(** The boot sequence when the power check passes. *)
Lemma boot_run w :
  runState bios_boot_sequence w =
  (if TEMP_NORMAL_MAX <? cpu_temp (g_state w)
   then BOOT_TEMP_CRITICAL else BOOT_OK,
   mkWorld (count_attempt (g_state w))
     (console w ++ boot_lines (g_state w))).
Proof.
  open_world w.
  unfold bios_boot_sequence, check_power_stability, bios_boot_sequence_over,
    boot_lines, power_stage_lines, thermal_lines, init_stage_lines.
  cbn. destruct (TEMP_NORMAL_MAX <? c); cbn; flatten_console; reflexivity.
Qed.

(** Observations read off the run equations. *)
Lemma thermal_status w :
  status_of check_thermal_conditions w =
  if TEMP_NORMAL_MAX <? cpu_temp (g_state w)
  then BOOT_TEMP_CRITICAL else BOOT_OK.
Proof. unfold status_of. rewrite check_thermal_conditions_run. reflexivity. Qed.

Lemma thermal_state w : state_after check_thermal_conditions w = g_state w.
Proof.
  unfold state_after, world_after. rewrite check_thermal_conditions_run.
  reflexivity.
Qed.

Lemma thermal_printed w :
  printed_by check_thermal_conditions w = thermal_lines (g_state w).
Proof.
  unfold printed_by, world_after. rewrite check_thermal_conditions_run.
  apply skipn_length_app.
Qed.

Lemma boot_status w :
  status_of bios_boot_sequence w =
  if TEMP_NORMAL_MAX <? cpu_temp (g_state w)
  then BOOT_TEMP_CRITICAL else BOOT_OK.
Proof. unfold status_of. rewrite boot_run. reflexivity. Qed.

Lemma boot_state w :
  state_after bios_boot_sequence w = count_attempt (g_state w).
Proof. unfold state_after, world_after. rewrite boot_run. reflexivity. Qed.

Lemma boot_printed w :
  printed_by bios_boot_sequence w = boot_lines (g_state w).
Proof.
  unfold printed_by, world_after. rewrite boot_run. apply skipn_length_app.
Qed.

Lemma boot_status_is_thermal_status w :
  status_of bios_boot_sequence w = status_of check_thermal_conditions w.
Proof. rewrite boot_status, thermal_status. reflexivity. Qed.

(** Every thermal evaluation prints its temperature line, so a run whose
    output has no such line did not evaluate the thermal conditions. *)
Lemma thermal_check_leaves_trace w :
  thermal_check_ran check_thermal_conditions w = true.
Proof. unfold thermal_check_ran. rewrite thermal_printed. reflexivity. Qed.

Lemma boot_runs_thermal_check w :
  thermal_check_ran bios_boot_sequence w = true.
Proof. unfold thermal_check_ran. rewrite boot_printed. reflexivity. Qed.

Lemma boot_completed_iff_ok w :
  boot_completed bios_boot_sequence w = true <->
  status_of bios_boot_sequence w = BOOT_OK.
Proof.
  unfold boot_completed. rewrite boot_printed, boot_status.
  unfold boot_lines, thermal_lines.
  destruct (TEMP_NORMAL_MAX <? cpu_temp (g_state w)); cbn;
    split; intros H; try reflexivity; discriminate H.
Qed.

(** The scenarios of [main], run from program start. *)
Example main_run :
  runState main boot_world =
  (0, mkWorld (mkSystemState 95 90 1 false)
        [TestTitle "=== Test 1: Normal Temperature ===";
         Banner 1; BootLog "Step 1: Power check";
         BootLog "Checking power supply stability...";
         BootLog "Power supply: STABLE";
         BootLog "Step 2: Thermal check";
         TempLine 75 70;
         BootLog "Step 3: Hardware initialization";
         BootLog "Initializing CPU..."; BootLog "Initializing Memory...";
         BootLog "Initializing I/O..."; BootLog "Step 4: Boot complete";
         Success;
         TestTitle "=== Test 2: High Temperature (Factory) ===";
         Banner 1; BootLog "Step 1: Power check";
         BootLog "Checking power supply stability...";
         BootLog "Power supply: STABLE";
         BootLog "Step 2: Thermal check";
         TempLine 95 90;
         ErrorLog "Temperature too high for boot!";
         ErrorLog "Boot aborted due to thermal conditions"]).
Proof. vm_compute. reflexivity. Qed.

(* ================================================================== *)
(** ** The thermal evaluation *)

Lemma Z_ltb_true_lt x y : x < y -> (x <? y) = true.
Proof. intros H. apply Z.ltb_lt. exact H. Qed.

Lemma Z_ltb_false_ge x y : y <= x -> (x <? y) = false.
Proof. intros H. apply Z.ltb_ge. exact H. Qed.

(** The status is [BOOT_TEMP_CRITICAL] exactly above the normal maximum and
    [BOOT_OK] otherwise; [BOOT_TEMP_WARNING] is never returned. *)
Lemma thermal_status_hot w :
  TEMP_NORMAL_MAX < cpu_temp (g_state w) ->
  status_of check_thermal_conditions w = BOOT_TEMP_CRITICAL.
Proof.
  intros H. rewrite thermal_status, (Z_ltb_true_lt _ _ H). reflexivity.
Qed.

Lemma thermal_status_cool w :
  cpu_temp (g_state w) <= TEMP_NORMAL_MAX ->
  status_of check_thermal_conditions w = BOOT_OK.
Proof.
  intros H. rewrite thermal_status, (Z_ltb_false_ge _ _ H). reflexivity.
Qed.

Lemma thermal_status_cases w :
  status_of check_thermal_conditions w = BOOT_OK \/
  status_of check_thermal_conditions w = BOOT_TEMP_CRITICAL.
Proof.
  rewrite thermal_status.
  destruct (TEMP_NORMAL_MAX <? cpu_temp (g_state w)); [right | left];
    reflexivity.
Qed.

Lemma thermal_never_warns w :
  status_of check_thermal_conditions w <> BOOT_TEMP_WARNING.
Proof.
  destruct (thermal_status_cases w) as [H | H]; rewrite H; discriminate.
Qed.

(** C1, as amended: when the CPU temperature is at or above [TEMP_CRITICAL]
    (140), [check_thermal_conditions] returns [BOOT_TEMP_CRITICAL] and
    [bios_boot_sequence] aborts with [BOOT_TEMP_CRITICAL] before the
    initialisation stage, whatever [high_temp_mode] holds (the world is
    arbitrary): it prints the banner, the power stage, the thermal step with
    its temperature line and the two error lines, and nothing else, so none
    of the lines of steps 3 and 4 and no success line. *)
Theorem critical_cpu_temp_aborts w :
  TEMP_CRITICAL <= cpu_temp (g_state w) ->
  status_of check_thermal_conditions w = BOOT_TEMP_CRITICAL /\
  status_of bios_boot_sequence w = BOOT_TEMP_CRITICAL /\
  boot_completed bios_boot_sequence w = false /\
  printed_by bios_boot_sequence w =
    power_stage_lines (to_uint8 (boot_count (g_state w) + 1)) true ++
    [BootLog "Step 2: Thermal check";
     TempLine (cpu_temp (g_state w)) (board_temp (g_state w));
     ErrorLog "Temperature too high for boot!";
     ErrorLog "Boot aborted due to thermal conditions"] /\
  (forall o, In o init_stage_lines ->
             ~ In o (printed_by bios_boot_sequence w)).
Proof.
  intros H.
  assert (Hhot : TEMP_NORMAL_MAX < cpu_temp (g_state w))
    by (unfold TEMP_CRITICAL, TEMP_NORMAL_MAX in *; lia).
  assert (Hb : status_of bios_boot_sequence w = BOOT_TEMP_CRITICAL)
    by (rewrite boot_status_is_thermal_status; apply thermal_status_hot, Hhot).
  assert (Hp : printed_by bios_boot_sequence w =
    power_stage_lines (to_uint8 (boot_count (g_state w) + 1)) true ++
    [BootLog "Step 2: Thermal check";
     TempLine (cpu_temp (g_state w)) (board_temp (g_state w));
     ErrorLog "Temperature too high for boot!";
     ErrorLog "Boot aborted due to thermal conditions"]).
  { rewrite boot_printed. unfold boot_lines, thermal_lines.
    rewrite (Z_ltb_true_lt _ _ Hhot). reflexivity. }
  split; [apply thermal_status_hot, Hhot | split; [exact Hb | split]].
  - destruct (boot_completed bios_boot_sequence w) eqn:E; [| reflexivity].
    apply boot_completed_iff_ok in E. rewrite Hb in E. discriminate E.
  - split; [exact Hp |].
    intros o Hinit Hout. rewrite Hp in Hout.
    unfold init_stage_lines, power_stage_lines in *.
    cbn [In app] in Hinit, Hout.
    repeat (destruct Hinit as [<- | Hinit];
            [repeat (destruct Hout as [Hout | Hout]; [discriminate Hout |]);
             exact Hout |]).
    exact Hinit.
Qed.

Lemma critical_cpu_temp_aborts_witness :
  status_of check_thermal_conditions overheated_world = BOOT_TEMP_CRITICAL /\
  status_of bios_boot_sequence overheated_world = BOOT_TEMP_CRITICAL /\
  boot_completed bios_boot_sequence overheated_world = false /\
  printed_by bios_boot_sequence overheated_world =
    power_stage_lines 1 true ++
    [BootLog "Step 2: Thermal check"; TempLine 145 70;
     ErrorLog "Temperature too high for boot!";
     ErrorLog "Boot aborted due to thermal conditions"] /\
  (forall o, In o init_stage_lines ->
             ~ In o (printed_by bios_boot_sequence overheated_world)).
Proof.
  apply (critical_cpu_temp_aborts overheated_world).
  unfold TEMP_CRITICAL. simpl. lia.
Defined.

(** C1, as stated, fails: with the board at 140 and the CPU at 75 the
    thermal evaluation returns [BOOT_OK] and the boot completes. *)
Lemma critical_board_temp_not_checked :
  ~ critical_ceiling_aborts hot_board_world.
Proof.
  unfold critical_ceiling_aborts. intros H.
  destruct H as [H _]; [right; vm_compute; discriminate |].
  vm_compute in H. discriminate H.
Qed.

(** C2: the code at the factory scenario of [main] (CPU 95, board 90, normal
    mode).  The thermal evaluation returns [BOOT_TEMP_CRITICAL], not
    [BOOT_TEMP_WARNING], leaves [high_temp_mode] unset, and the boot attempt
    is aborted before the initialisation stage. *)
Theorem factory_scenario_blocked :
  TEMP_NORMAL_MAX <= cpu_temp (g_state factory_world) < TEMP_HIGH_MAX /\
  cpu_temp (g_state factory_world) < TEMP_CRITICAL /\
  board_temp (g_state factory_world) < TEMP_CRITICAL /\
  status_of check_thermal_conditions factory_world = BOOT_TEMP_CRITICAL /\
  high_temp_mode (state_after check_thermal_conditions factory_world) = false /\
  status_of bios_boot_sequence factory_world = BOOT_TEMP_CRITICAL /\
  high_temp_mode (state_after bios_boot_sequence factory_world) = false /\
  boot_completed bios_boot_sequence factory_world = false.
Proof. vm_compute. intuition (discriminate || reflexivity). Qed.




(** C4, as amended: a CPU temperature equal to [TEMP_NORMAL_MAX] (85) is
    within the normal ceiling: the thermal evaluation returns [BOOT_OK] and
    the boot completes.  The comparison is strict: the status is
    [BOOT_TEMP_CRITICAL] exactly when the CPU temperature is above 85. *)
Theorem normal_max_boundary_proceeds w :
  (cpu_temp (g_state w) = TEMP_NORMAL_MAX ->
   status_of check_thermal_conditions w = BOOT_OK /\
   status_of bios_boot_sequence w = BOOT_OK) /\
  (status_of check_thermal_conditions w = BOOT_TEMP_CRITICAL <->
   TEMP_NORMAL_MAX < cpu_temp (g_state w)).
Proof.
  split.
  - intros H. rewrite boot_status_is_thermal_status.
    split; apply thermal_status_cool; lia.
  - rewrite thermal_status.
    destruct (Z.ltb_spec TEMP_NORMAL_MAX (cpu_temp (g_state w))) as [Hlt | Hge];
      split; intros H; try reflexivity; try exact Hlt.
    + discriminate H.
    + lia.
Qed.

Lemma normal_max_boundary_proceeds_witness :
  status_of check_thermal_conditions boundary_world = BOOT_OK /\
  status_of bios_boot_sequence boundary_world = BOOT_OK.
Proof.
  apply (proj1 (normal_max_boundary_proceeds boundary_world)).
  reflexivity.
Defined.

(** C4, as stated, fails: at exactly 85 the status is [BOOT_OK]. *)
Lemma boundary_reading_is_plain_proceed :
  ~ boundary_counts_as_exceeded boundary_world.
Proof.
  unfold boundary_counts_as_exceeded. intros H.
  apply H; reflexivity.
Qed.

(* ================================================================== *)
(** ** The power gate *)

Lemma power_status power_ok w :
  status_of (check_power_stability_of power_ok) w = power_ok.
Proof. unfold status_of. rewrite check_power_stability_of_run. reflexivity. Qed.

(** Whatever the power check does, once it returns [false] the boot sequence
    returns [BOOT_FAILED] in the world the power check left: nothing runs
    after it. *)
Lemma boot_stops_after_failed_power_check (power_check : BIOS bool) w :
  status_of power_check (at_power_check w) = false ->
  runState (bios_boot_sequence_over power_check) w =
  (BOOT_FAILED, world_after power_check (at_power_check w)).
Proof.
  unfold status_of, world_after, at_power_check, bios_boot_sequence_over.
  open_world w. cbn. flatten_console.
  destruct (runState power_check _) as [ok w1]. cbn.
  intros ->. reflexivity.
Qed.

(** C5: if the power check returns [false], the boot sequence returns
    [BOOT_FAILED]; it prints the banner and the power stage only, so no
    temperature line appears (the thermal evaluation is not run) and the
    stored temperatures and mode are as before. *)
Theorem power_fault_skips_thermal_check power_ok w w' :
  status_of (check_power_stability_of power_ok) w' = false ->
  let boot := bios_boot_sequence_over (check_power_stability_of power_ok) in
  status_of boot w = BOOT_FAILED /\
  thermal_check_ran boot w = false /\
  printed_by boot w =
    power_stage_lines (to_uint8 (boot_count (g_state w) + 1)) false /\
  state_after boot w = count_attempt (g_state w).
Proof.
  rewrite power_status. intros ->. cbv zeta.
  unfold status_of, thermal_check_ran, printed_by, state_after, world_after.
  rewrite boot_run_power_fail. cbn [fst snd g_state console].
  rewrite skipn_length_app. repeat split; reflexivity.
Qed.

Lemma power_fault_skips_thermal_check_witness :
  let boot := bios_boot_sequence_over (check_power_stability_of false) in
  status_of boot factory_world = BOOT_FAILED /\
  thermal_check_ran boot factory_world = false /\
  printed_by boot factory_world =
    power_stage_lines (to_uint8 (boot_count (g_state factory_world) + 1)) false /\
  state_after boot factory_world = count_attempt (g_state factory_world).
Proof.
  apply (power_fault_skips_thermal_check false factory_world boot_world).
  reflexivity.
Defined.

(** C8: [check_power_stability] returns [true] in every world, and
    [bios_boot_sequence] never returns [BOOT_FAILED]. *)
Theorem power_check_always_passes w :
  status_of check_power_stability w = true /\
  status_of bios_boot_sequence w <> BOOT_FAILED.
Proof.
  split.
  - apply power_status.
  - rewrite boot_status_is_thermal_status.
    destruct (thermal_status_cases w) as [H | H]; rewrite H; discriminate.
Qed.

(* ================================================================== *)
(** ** Sessions of boot attempts *)

Lemma boot_session_cons c b rest w :
  runState (boot_session ((c, b) :: rest)) w =
  (status_of bios_boot_sequence (store_reading c b w) ::
     status_of (boot_session rest)
       (world_after bios_boot_sequence (store_reading c b w)),
   world_after (boot_session rest)
     (world_after bios_boot_sequence (store_reading c b w))).
Proof.
  unfold status_of, world_after, store_reading. cbn [boot_session].
  cbn -[bios_boot_sequence boot_session].
  destruct (runState bios_boot_sequence _) as [r w1]. cbn [fst snd].
  destruct (runState (boot_session rest) w1) as [rs w2]. reflexivity.
Qed.

Lemma boot_session_world_cons c b rest w :
  world_after (boot_session ((c, b) :: rest)) w =
  world_after (boot_session rest)
    (world_after bios_boot_sequence (store_reading c b w)).
Proof. unfold world_after at 1. rewrite boot_session_cons. reflexivity. Qed.

(** A session over [pre ++ post] is the session over [post] run from where
    the session over [pre] stopped. *)
Lemma boot_session_world_app pre post :
  forall w,
    world_after (boot_session (pre ++ post)) w =
    world_after (boot_session post) (world_after (boot_session pre) w).
Proof.
  induction pre as [| [c b] pre IH]; intros w.
  - reflexivity.
  - cbn [app]. rewrite !boot_session_world_cons. apply IH.
Qed.

Lemma boot_world_state w :
  g_state (world_after bios_boot_sequence w) = count_attempt (g_state w).
Proof. exact (boot_state w). Qed.

Lemma to_uint8_small x : 0 <= x <= uint8_max -> to_uint8 x = x.
Proof.
  unfold to_uint8, uint8_max. intros H. apply Z.mod_small. lia.
Qed.

Lemma boot_session_count readings :
  forall w,
    0 <= boot_count (g_state w) ->
    boot_count (g_state w) + Z.of_nat (List.length readings) <= uint8_max ->
    boot_count (state_after (boot_session readings) w) =
    boot_count (g_state w) + Z.of_nat (List.length readings).
Proof.
  induction readings as [| [c b] rest IH]; intros w Hlo Hhi.
  - unfold state_after, world_after. cbn. lia.
  - unfold state_after in *. rewrite boot_session_world_cons.
    cbn [List.length] in Hhi. rewrite Nat2Z.inj_succ in Hhi.
    assert (Hstep :
      boot_count (g_state (world_after bios_boot_sequence (store_reading c b w)))
      = boot_count (g_state w) + 1).
    { rewrite boot_world_state. cbn. apply to_uint8_small. lia. }
    rewrite IH; rewrite Hstep; cbn [List.length];
      try rewrite Nat2Z.inj_succ; lia.
Qed.

(** The boot sequence keeps every field within the range of its C type. *)
Lemma boot_preserves_range w :
  in_range (g_state w) -> in_range (state_after bios_boot_sequence w).
Proof.
  unfold in_range. intros (Hc & Hb & _). rewrite boot_state.
  cbn [count_attempt set_boot_count cpu_temp board_temp boot_count].
  repeat split; try tauto; unfold to_uint8, uint8_max;
    pose proof (Z.mod_pos_bound (boot_count (g_state w) + 1) 256); lia.
Qed.

Lemma worn_world_state :
  g_state worn_world = mkSystemState 75 70 255 false.
Proof. vm_compute. reflexivity. Qed.

(** C6, as amended: a call to [bios_boot_sequence] sets [boot_count] to
    [(boot_count + 1) mod 256]: one more when it was below 255, and 0 when it
    was 255.  Over a session of calls that keeps the count within 255 the
    counter gains one per call, so it never decreases there. *)
Theorem boot_count_steps_modulo_256 w pre post :
  0 <= boot_count (g_state w) <= uint8_max ->
  boot_count (state_after bios_boot_sequence w) =
    (boot_count (g_state w) + 1) mod 256 /\
  (boot_count (g_state w) < uint8_max ->
   boot_count (state_after bios_boot_sequence w) = boot_count (g_state w) + 1) /\
  (boot_count (g_state w) = uint8_max ->
   boot_count (state_after bios_boot_sequence w) = 0) /\
  (boot_count (g_state w) + Z.of_nat (List.length (pre ++ post)) <= uint8_max ->
   let mid := world_after (boot_session pre) w in
   let final := world_after (boot_session (pre ++ post)) w in
   final = world_after (boot_session post) mid /\
   boot_count (g_state mid) =
     boot_count (g_state w) + Z.of_nat (List.length pre) /\
   boot_count (g_state final) =
     boot_count (g_state w) + Z.of_nat (List.length (pre ++ post)) /\
   boot_count (g_state w) <= boot_count (g_state mid) <=
     boot_count (g_state final)).
Proof.
  intros Hrange. rewrite boot_state. cbn [count_attempt set_boot_count boot_count].
  unfold to_uint8.
  split; [reflexivity | split; [| split]].
  - intros Hlt. apply Z.mod_small. unfold uint8_max in *. lia.
  - intros ->. reflexivity.
  - intros Hfit. cbv zeta.
    pose proof (boot_session_world_app pre post w) as Happ.
    rewrite length_app, Nat2Z.inj_add in Hfit.
    assert (Hmid := boot_session_count pre w (proj1 Hrange)).
    assert (Hfin := boot_session_count (pre ++ post) w (proj1 Hrange)).
    unfold state_after in Hmid, Hfin.
    rewrite length_app, Nat2Z.inj_add in Hfin.
    rewrite length_app, Nat2Z.inj_add.
    split; [exact Happ |].
    rewrite Hmid, Hfin by lia. lia.
Qed.

Lemma boot_count_steps_modulo_256_witness :
  boot_count (state_after bios_boot_sequence boot_world) = 1 /\
  boot_count (state_after (boot_session [(75, 70); (95, 90)]) boot_world) = 2.
Proof.
  destruct (boot_count_steps_modulo_256 boot_world [(75, 70)] [(95, 90)])
    as (_ & Hone & _ & Hsession).
  - unfold uint8_max. simpl. lia.
  - split.
    + apply Hone. unfold uint8_max. simpl. lia.
    + destruct Hsession as (_ & _ & Hfin & _).
      * unfold uint8_max. simpl. lia.
      * exact Hfin.
Defined.

(** C6, as stated, fails: after 255 attempts from program start the counter
    holds 255, and the next call leaves it at 0. *)
Lemma boot_count_wraps_after_255 :
  ~ attempt_counter_grows worn_world.
Proof.
  unfold attempt_counter_grows. intros [H _].
  rewrite boot_state, worn_world_state in H.
  vm_compute in H. discriminate H.
Qed.

(* ================================================================== *)
(** ** Dependence of the thermal evaluation on the state *)

(** C7: the status and the resulting mode of the thermal evaluation are
    determined by the stored reading and mode: two worlds that agree on
    those give the same status and the same mode, and a second call right
    after the first repeats its status and leaves the same state. *)
Theorem thermal_evaluation_deterministic w1 w2 :
  same_thermal_input (g_state w1) (g_state w2) ->
  status_of check_thermal_conditions w1 = status_of check_thermal_conditions w2 /\
  high_temp_mode (state_after check_thermal_conditions w1) =
    high_temp_mode (state_after check_thermal_conditions w2) /\
  status_of check_thermal_conditions
    (world_after check_thermal_conditions w1) =
    status_of check_thermal_conditions w1 /\
  state_after check_thermal_conditions
    (world_after check_thermal_conditions w1) =
    state_after check_thermal_conditions w1.
Proof.
  intros (Hc & _ & Hm).
  rewrite !thermal_state, !thermal_status.
  fold (state_after check_thermal_conditions w1). rewrite thermal_state.
  rewrite Hc, Hm. repeat split; reflexivity.
Qed.

Lemma thermal_evaluation_deterministic_witness :
  status_of check_thermal_conditions factory_world =
    status_of check_thermal_conditions later_factory_world /\
  high_temp_mode (state_after check_thermal_conditions factory_world) =
    high_temp_mode (state_after check_thermal_conditions later_factory_world) /\
  status_of check_thermal_conditions
    (world_after check_thermal_conditions factory_world) =
    status_of check_thermal_conditions factory_world /\
  state_after check_thermal_conditions
    (world_after check_thermal_conditions factory_world) =
    state_after check_thermal_conditions factory_world.
Proof.
  apply (thermal_evaluation_deterministic factory_world later_factory_world).
  repeat split; reflexivity.
Defined.

(** C9: two states that differ only in [board_temp] get the same status
    from [check_thermal_conditions] and the same result from
    [bios_boot_sequence]. *)
Theorem board_temp_has_no_influence w1 w2 :
  same_but_board_temp (g_state w1) (g_state w2) ->
  status_of check_thermal_conditions w1 = status_of check_thermal_conditions w2 /\
  status_of bios_boot_sequence w1 = status_of bios_boot_sequence w2.
Proof.
  intros (Hc & _ & _).
  rewrite !boot_status, !thermal_status, Hc. split; reflexivity.
Qed.

Lemma board_temp_has_no_influence_witness :
  status_of check_thermal_conditions normal_world =
    status_of check_thermal_conditions hot_board_world /\
  status_of bios_boot_sequence normal_world =
    status_of bios_boot_sequence hot_board_world.
Proof.
  apply (board_temp_has_no_influence normal_world hot_board_world).
  repeat split; reflexivity.
Defined.

(* ================================================================== *)
(** ** The mode flag *)

Lemma boot_over_state power_ok w :
  state_after (bios_boot_sequence_over (check_power_stability_of power_ok)) w =
  count_attempt (g_state w).
Proof.
  destruct power_ok.
  - exact (boot_state w).
  - unfold state_after, world_after. rewrite boot_run_power_fail. reflexivity.
Qed.

Lemma boot_session_mode readings :
  forall w,
    high_temp_mode (state_after (boot_session readings) w) =
    high_temp_mode (g_state w).
Proof.
  induction readings as [| [c b] rest IH]; intros w.
  - reflexivity.
  - unfold state_after in *. rewrite boot_session_world_cons, IH.
    rewrite boot_world_state. reflexivity.
Qed.

(** C10: [high_temp_mode] after [check_thermal_conditions], after
    [bios_boot_sequence] (whichever way the power check goes) and after any
    session of boot attempts equals its value before; from program start it
    stays [false]. *)
Theorem high_temp_mode_never_written w power_ok readings :
  high_temp_mode (state_after check_thermal_conditions w) =
    high_temp_mode (g_state w) /\
  high_temp_mode (state_after bios_boot_sequence w) =
    high_temp_mode (g_state w) /\
  high_temp_mode
    (state_after
       (bios_boot_sequence_over (check_power_stability_of power_ok)) w) =
    high_temp_mode (g_state w) /\
  high_temp_mode (state_after (boot_session readings) w) =
    high_temp_mode (g_state w) /\
  high_temp_mode (state_after (boot_session readings) boot_world) = false.
Proof.
  rewrite thermal_state, boot_state, boot_over_state, !boot_session_mode.
  repeat split; reflexivity.
Qed.

(* ================================================================== *)
(** ** Frame and status properties of one attempt *)

(** X1: [check_thermal_conditions] leaves the whole of [g_state] as it
    found it (the two sensor values it stores are the ones already there),
    and the first line it prints reports the stored CPU and board
    temperatures. *)
Theorem thermal_check_keeps_state w :
  state_after check_thermal_conditions w = g_state w /\
  hd_error (printed_by check_thermal_conditions w) =
    Some (TempLine (cpu_temp (g_state w)) (board_temp (g_state w))).
Proof.
  rewrite thermal_state, thermal_printed. split; reflexivity.
Qed.

(** X2: a boot attempt never alters the stored temperatures, whether the
    power check passes or fails. *)
Theorem boot_keeps_temperatures power_ok w :
  let boot := bios_boot_sequence_over (check_power_stability_of power_ok) in
  cpu_temp (state_after bios_boot_sequence w) = cpu_temp (g_state w) /\
  board_temp (state_after bios_boot_sequence w) = board_temp (g_state w) /\
  cpu_temp (state_after boot w) = cpu_temp (g_state w) /\
  board_temp (state_after boot w) = board_temp (g_state w).
Proof.
  cbv zeta. rewrite boot_state, boot_over_state. repeat split; reflexivity.
Qed.

(** X3: the only status codes ever returned are [BOOT_OK] and
    [BOOT_TEMP_CRITICAL]; [BOOT_TEMP_WARNING] is returned neither by
    [check_thermal_conditions] nor by [bios_boot_sequence]. *)
Theorem warning_status_never_returned w :
  (status_of bios_boot_sequence w = BOOT_OK \/
   status_of bios_boot_sequence w = BOOT_TEMP_CRITICAL) /\
  status_of bios_boot_sequence w <> BOOT_TEMP_WARNING /\
  status_of check_thermal_conditions w <> BOOT_TEMP_WARNING.
Proof.
  rewrite boot_status_is_thermal_status.
  destruct (thermal_status_cases w) as [H | H]; rewrite H;
    repeat split; try discriminate; [left | right]; reflexivity.
Qed.

(** X4: [bios_boot_sequence] returns [BOOT_OK] exactly when the stored CPU
    temperature is at most [TEMP_NORMAL_MAX], and the success line is printed
    exactly when it returns [BOOT_OK]. *)
Theorem boot_succeeds_iff_cpu_within_normal_max w :
  (status_of bios_boot_sequence w = BOOT_OK <->
   cpu_temp (g_state w) <= TEMP_NORMAL_MAX) /\
  (boot_completed bios_boot_sequence w = true <->
   status_of bios_boot_sequence w = BOOT_OK).
Proof.
  split; [| apply boot_completed_iff_ok].
  rewrite boot_status.
  destruct (Z.ltb_spec TEMP_NORMAL_MAX (cpu_temp (g_state w))) as [Hlt | Hge];
    split; intros H; try reflexivity; try exact Hge.
  - discriminate H.
  - lia.
Qed.

(** X5: the error lines of a boot attempt match its result: an aborted
    attempt logs the thermal error and then the abort message, a completed
    one logs no error at all. *)
Theorem errors_logged_iff_aborted w :
  error_lines bios_boot_sequence w =
  if status_of bios_boot_sequence w =? BOOT_TEMP_CRITICAL
  then [ErrorLog "Temperature too high for boot!";
        ErrorLog "Boot aborted due to thermal conditions"]
  else [].
Proof.
  unfold error_lines. rewrite boot_printed, boot_status.
  unfold boot_lines, thermal_lines.
  destruct (TEMP_NORMAL_MAX <? cpu_temp (g_state w)); reflexivity.
Qed.

(** X6: the output of a boot attempt starts with the banner, and the attempt
    number in it is the value [boot_count] holds after the call (so the
    banner after attempt 255 shows 0). *)
Theorem banner_shows_stored_count power_ok w :
  let boot := bios_boot_sequence_over (check_power_stability_of power_ok) in
  hd_error (printed_by bios_boot_sequence w) =
    Some (Banner (boot_count (state_after bios_boot_sequence w))) /\
  hd_error (printed_by boot w) = Some (Banner (boot_count (state_after boot w))).
Proof.
  cbv zeta. rewrite boot_printed, boot_state, boot_over_state.
  split; [reflexivity |].
  destruct power_ok.
  - change (bios_boot_sequence_over (check_power_stability_of true))
      with bios_boot_sequence.
    rewrite boot_printed. reflexivity.
  - unfold printed_by, world_after. rewrite boot_run_power_fail.
    cbn [snd console]. rewrite skipn_length_app. reflexivity.
Qed.

(** X7: a second boot attempt made without storing a new reading returns
    the status of the first one. *)
Theorem retry_repeats_status w :
  status_of bios_boot_sequence (world_after bios_boot_sequence w) =
  status_of bios_boot_sequence w.
Proof.
  rewrite !boot_status. rewrite boot_world_state. reflexivity.
Qed.

(* ================================================================== *)
(** ** Properties of sessions and of [main] *)

Lemma to_uint16_small x : 0 <= x <= uint16_max -> to_uint16 x = x.
Proof.
  unfold to_uint16, uint16_max. intros H. apply Z.mod_small. lia.
Qed.

(** X9: in a session whose readings fit the [uint16_t] temperature fields,
    the status of each attempt is decided by the CPU temperature of its own
    reading alone: [BOOT_TEMP_CRITICAL] above [TEMP_NORMAL_MAX], [BOOT_OK]
    otherwise, whatever the starting state, the board temperatures and the
    outcomes of the attempts before it. *)
Theorem session_status_per_reading readings :
  forall w,
    Forall reading_in_range readings ->
    status_of (boot_session readings) w =
    map (fun r => if TEMP_NORMAL_MAX <? fst r
                  then BOOT_TEMP_CRITICAL else BOOT_OK) readings.
Proof.
  induction readings as [| [c b] rest IH]; intros w Hall.
  - reflexivity.
  - inversion Hall as [| r rs [Hc _] Hrest]; subst. cbn [fst] in Hc.
    unfold status_of at 1. rewrite boot_session_cons. cbn [fst map].
    rewrite (IH _ Hrest), boot_status.
    cbn [store_reading g_state set_board_temp set_cpu_temp cpu_temp].
    rewrite (to_uint16_small c Hc). reflexivity.
Qed.

Lemma session_status_per_reading_witness :
  status_of (boot_session [(75, 70); (95, 90); (85, 200); (86, 0)]) worn_world =
  [BOOT_OK; BOOT_TEMP_CRITICAL; BOOT_OK; BOOT_TEMP_CRITICAL].
Proof.
  apply (session_status_per_reading
           [(75, 70); (95, 90); (85, 200); (86, 0)] worn_world).
  repeat constructor; unfold uint16_max; simpl; lia.
Defined.

(** X10: after a session of [n] attempts the counter holds
    [(boot_count + n) mod 256], for a counter that started within the range
    of [uint8_t]; 256 attempts bring it back to where it was. *)
Theorem session_count_modulo_256 readings :
  forall w,
    0 <= boot_count (g_state w) <= uint8_max ->
    boot_count (state_after (boot_session readings) w) =
    (boot_count (g_state w) + Z.of_nat (List.length readings)) mod 256.
Proof.
  induction readings as [| [c b] rest IH]; intros w Hrange.
  - unfold state_after, world_after. cbn.
    rewrite Z.add_0_r. symmetry. apply Z.mod_small.
    unfold uint8_max in Hrange. lia.
  - unfold state_after in *. rewrite boot_session_world_cons.
    set (w1 := world_after bios_boot_sequence (store_reading c b w)).
    assert (Hw1 : boot_count (g_state w1) =
                  (boot_count (g_state w) + 1) mod 256).
    { unfold w1. rewrite boot_world_state. reflexivity. }
    rewrite IH.
    + rewrite Hw1, Zplus_mod_idemp_l. f_equal.
      cbn [List.length]. rewrite Nat2Z.inj_succ. lia.
    + rewrite Hw1. unfold uint8_max.
      pose proof (Z.mod_pos_bound (boot_count (g_state w) + 1) 256). lia.
Qed.

Lemma session_count_modulo_256_witness :
  boot_count (state_after (boot_session (repeat (75, 70) 256)) boot_world) = 0.
Proof.
  rewrite (session_count_modulo_256 (repeat (75, 70) 256) boot_world).
  - reflexivity.
  - unfold uint8_max. simpl. lia.
Defined.

(** X12: from any starting state, [main] returns 0, leaves the second
    scenario's reading and a counter of 1 (it resets the counter before the
    second attempt) and does not touch [high_temp_mode]; its first scenario
    boots to completion and its second is aborted by the thermal check. *)
Theorem main_from_any_state w :
  runState main w =
  (0,
   mkWorld (mkSystemState 95 90 1 (high_temp_mode (g_state w)))
     (console w ++
      TestTitle "=== Test 1: Normal Temperature ===" ::
      power_stage_lines (to_uint8 (boot_count (g_state w) + 1)) true ++
      BootLog "Step 2: Thermal check" :: TempLine 75 70 ::
      init_stage_lines ++
      TestTitle "=== Test 2: High Temperature (Factory) ===" ::
      power_stage_lines 1 true ++
      [BootLog "Step 2: Thermal check"; TempLine 95 90;
       ErrorLog "Temperature too high for boot!";
       ErrorLog "Boot aborted due to thermal conditions"])).
Proof.
  open_world w. unfold main, power_stage_lines, init_stage_lines.
  cbn. flatten_console. reflexivity.
Qed.

(* ================================================================== *)
(** ** Reachable worlds *)

(** Sessions and [main] stay within the reachable worlds. *)
Lemma boot_session_reachable readings :
  forall w, reachable w -> reachable (world_after (boot_session readings) w).
Proof.
  induction readings as [| [c b] rest IH]; intros w Hw.
  - exact Hw.
  - rewrite boot_session_world_cons.
    apply IH, reach_boot, reach_store, Hw.
Qed.

Lemma main_world w :
  world_after main w =
  world_after bios_boot_sequence
    (reset_count
       (store_reading 95 90
          (print_line (TestTitle "=== Test 2: High Temperature (Factory) ===")
             (world_after bios_boot_sequence
                (store_reading 75 70
                   (print_line (TestTitle "=== Test 1: Normal Temperature ===")
                      w)))))).
Proof. open_world w. vm_compute. reflexivity. Qed.

Lemma main_reachable w : reachable w -> reachable (world_after main w).
Proof.
  intros Hw. rewrite main_world.
  apply reach_boot, reach_reset_count, reach_store, reach_print, reach_boot,
    reach_store, reach_print, Hw.
Qed.
